(** * The quote-pair reducer and its perspective sink

    A shallow embedding of [DataManipulator.generateRow] and of the two
    lifecycle methods of the [Graph] component that feed its rows to a
    perspective table, with the properties of the specification stated
    about them.

    JavaScript numbers are IEEE 754 binary64 values: they are modelled by
    the primitive [float] of the Standard Library, whose operations are the
    binary64 ones ([x > y] is [y <? x], a comparison with NaN is [false]). *)

From Stdlib Require Import ZArith Floats Ascii String List.
From stdpp Require Import base option list gmap strings.

#[local] Set Warnings "-inexact-float".
#[local] Open Scope Z_scope.

(** ** Completions: a call returns a value or throws *)

(** The only exception the modelled code can raise is the TypeError of a
    property read on [undefined]. *)
Inductive exn : Set :=
  | TypeError.

Inductive completion (A : Type) : Type :=
  | Return (a : A)
  | Throw (e : exn).
Arguments Return {A} a.
Arguments Throw {A} e.

#[global] Instance completion_ret : MRet completion := @Return.
#[global] Instance completion_fmap : FMap completion :=
  fun A B (f : A -> B) (m : completion A) =>
    match m with
    | Return a => Return (f a)
    | Throw e => Throw e
    end.
#[global] Instance completion_bind : MBind completion :=
  fun A B (k : A -> completion B) (m : completion A) =>
    match m with
    | Return a => k a
    | Throw e => Throw e
    end.

(** [o.p] where [o] may be [undefined]: reading a property of [undefined]
    throws a TypeError. *)
Definition deref {A : Type} (o : option A) : completion A :=
  match o with
  | Some a => Return a
  | None => Throw TypeError
  end.

(** ToNumber on an operand that is a number or [undefined]. *)
Definition to_number (v : option float) : float :=
  match v with
  | Some x => x
  | None => nan
  end.

(** ** The quotes received from the data streamer *)

Module DataStreamer.

(** Modelled from the spec: the interfaces [Order] and [ServerRespond] of
    [./DataStreamer] are imported by the sources but not among them. A quote
    snapshot identifies an instrument and carries a top-of-book ask price, a
    top-of-book bid price and a timestamp; [generateRow] reads them as
    [top_ask.price], [top_bid.price] and [timestamp]. A property that the
    object received at run time does not have reads as [undefined] ([None]).
    A [Date] is modelled by its time value, the number of milliseconds since
    the epoch, which is what [>] compares. *)
Record Order : Type := mkOrder {
  price : option float
}.

Record ServerRespond : Type := mkServerRespond {
  stock : string;
  top_bid : option Order;
  top_ask : option Order;
  timestamp : Z
}.

(** A snapshot that carries both prices, as the interface declares it. *)
Definition quote (name : string) (ask bid : float) (ts : Z) : ServerRespond :=
  {| stock := name;
     top_bid := Some {| price := Some bid |};
     top_ask := Some {| price := Some ask |};
     timestamp := ts |}.

(** Both order objects are there (their [price] may still be missing). *)
Definition has_orders (s : ServerRespond) : bool :=
  bool_decide (is_Some (top_ask s)) && bool_decide (is_Some (top_bid s)).

(** Both order objects are there and each one has its [price]. *)
Definition has_prices (s : ServerRespond) : bool :=
  match top_ask s, top_bid s with
  | Some a, Some b =>
      bool_decide (is_Some (price a)) && bool_decide (is_Some (price b))
  | _, _ => false
  end.

End DataStreamer.

(** ** DataManipulator *)

Module DataManipulator.
Import DataStreamer.

Record Row : Type := mkRow {
  price_abc : float;
  price_def : float;
  ratio : float;
  timestamp : Z;
  upper_bound : float;
  lower_bound : float;
  trigger_alert : option float
}.

(** The declaration of the interface [Row]: the type of each property. *)
Inductive field_type : Set :=
  | TNumber
  | TDate
  | TNumberOrUndefined.

Definition Row_interface : list (string * field_type) :=
  [ ("price_abc", TNumber);
    ("price_def", TNumber);
    ("ratio", TNumber);
    ("timestamp", TDate);
    ("upper_bound", TNumber);
    ("lower_bound", TNumber);
    ("trigger_alert", TNumberOrUndefined) ]%string.

Definition upperBound : float := (1 + 0.05)%float.
Definition lowerBound : float := (1 - 0.05)%float.

(** [serverRespond[i]] is [undefined] past the end of the array, and so is
    a missing [top_ask] or [top_bid]: each property read on them throws. The
    reads are made in the order of the source. *)
Definition generateRow (serverRespond : list ServerRespond) : completion Row :=
  s ← deref (serverRespond !! 0%nat);
  ask0 ← deref (top_ask s);
  s ← deref (serverRespond !! 0%nat);
  bid0 ← deref (top_bid s);
  let priceABC := ((to_number (price ask0) + to_number (price bid0)) / 2)%float in
  s ← deref (serverRespond !! 1%nat);
  ask1 ← deref (top_ask s);
  s ← deref (serverRespond !! 1%nat);
  bid1 ← deref (top_bid s);
  let priceDEF := ((to_number (price ask1) + to_number (price bid1)) / 2)%float in
  let ratio := (priceABC / priceDEF)%float in
  s0 ← deref (serverRespond !! 0%nat);
  s1 ← deref (serverRespond !! 1%nat);
  mret {| price_abc := priceABC;
          price_def := priceDEF;
          ratio := ratio;
          timestamp :=
            if DataStreamer.timestamp s1 <? DataStreamer.timestamp s0
            then DataStreamer.timestamp s0 else DataStreamer.timestamp s1;
          upper_bound := upperBound;
          lower_bound := lowerBound;
          trigger_alert :=
            if (upperBound <? ratio)%float || (ratio <? lowerBound)%float
            then Some ratio else None |}.

End DataManipulator.

(** ** The JSON text of the viewer's attributes *)

Module JSON.

Definition dquote : ascii := ascii_of_nat 34.
Definition backslash : ascii := ascii_of_nat 92.

Definition quoted (s : string) : string :=
  String dquote (s ++ String dquote EmptyString).

Definition member (kv : string * string) : string :=
  quoted kv.1 ++ ":" ++ quoted kv.2.

(** [JSON.stringify] on an object literal whose values are strings; the
    keys and values of the source contain no character that needs an
    escape. *)
Definition stringify (o : list (string * string)) : string :=
  "{" ++ String.concat "," (map member o) ++ "}".

(** The viewer reads the attributes back with [JSON.parse]; the reader
    below covers the texts the component writes: arrays of strings and
    objects with string values, white space allowed between tokens, no
    escape inside a string. *)
Inductive token : Set :=
  | LBracket | RBracket | LBrace | RBrace | Comma | Colon
  | Str (s : string).

Definition is_space (c : ascii) : bool :=
  let n := nat_of_ascii c in
  (n =? 32)%nat || (n =? 9)%nat || (n =? 10)%nat || (n =? 13)%nat.

Definition punct (c : ascii) : option token :=
  match nat_of_ascii c with
  | 91%nat => Some LBracket
  | 93%nat => Some RBracket
  | 123%nat => Some LBrace
  | 125%nat => Some RBrace
  | 44%nat => Some Comma
  | 58%nat => Some Colon
  | _ => None
  end.

(** [lit] is the string literal being read, if any. *)
Fixpoint lex (s : string) (lit : option string) : option (list token) :=
  match s with
  | EmptyString =>
      match lit with
      | None => Some []
      | Some _ => None
      end
  | String c s' =>
      match lit with
      | Some acc =>
          if Ascii.eqb c dquote then cons (Str acc) <$> lex s' None
          else if Ascii.eqb c backslash then None
          else lex s' (Some (acc ++ String c EmptyString)%string)
      | None =>
          if is_space c then lex s' None
          else if Ascii.eqb c dquote then lex s' (Some EmptyString)
          else
            match punct c with
            | Some t => cons t <$> lex s' None
            | None => None
            end
      end
  end.

Fixpoint elements (ts : list token) : option (list string) :=
  match ts with
  | [Str s; RBracket] => Some [s]
  | Str s :: Comma :: ts' => cons s <$> elements ts'
  | _ => None
  end.

Definition parse_array (s : string) : option (list string) :=
  match lex s None with
  | Some [LBracket; RBracket] => Some []
  | Some (LBracket :: ts) => elements ts
  | _ => None
  end.

Fixpoint members (ts : list token) : option (list (string * string)) :=
  match ts with
  | [Str k; Colon; Str v; RBrace] => Some [(k, v)]
  | Str k :: Colon :: Str v :: Comma :: ts' => cons (k, v) <$> members ts'
  | _ => None
  end.

Definition parse_object (s : string) : option (list (string * string)) :=
  match lex s None with
  | Some [LBrace; RBrace] => Some []
  | Some (LBrace :: ts) => members ts
  | _ => None
  end.

End JSON.

(** ** The Graph component *)

Module Graph.
Import DataStreamer DataManipulator.

(** A perspective table, as far as the component can tell: the schema it
    was created with and the batches its [update] has received, oldest
    first. *)
Record Table : Type := mkTable {
  table_schema : list (string * string);
  batches : list (list Row)
}.

Definition update (t : Table) (data : list Row) : Table :=
  {| table_schema := table_schema t; batches := batches t ++ [data] |}.

Inductive Worker : Set :=
  | PerspectiveWorker.

Definition worker_table (w : Worker) (schema : list (string * string)) : Table :=
  {| table_schema := schema; batches := [] |}.

(** [window.perspective] may be missing, and its [worker()] may return
    nothing. *)
Record Perspective : Type := mkPerspective {
  worker : option Worker
}.

Record Window : Type := mkWindow {
  perspective : option Perspective
}.

(** The <perspective-viewer> element: whether [load] gave it the
    component's table (it keeps a reference to it, not a copy) and the
    attributes set on it. *)
Record PerspectiveViewerElement : Type := mkElement {
  loaded : bool;
  attributes : gmap string string
}.

Definition load (e : PerspectiveViewerElement) : PerspectiveViewerElement :=
  {| loaded := true; attributes := attributes e |}.

Definition setAttribute (name value : string) (e : PerspectiveViewerElement)
  : PerspectiveViewerElement :=
  {| loaded := loaded e; attributes := <[name := value]> (attributes e) |}.

(** [React.createElement('perspective-viewer')]: no attribute, no table. *)
Definition render : PerspectiveViewerElement :=
  {| loaded := false; attributes := ∅ |}.

(** The component: its field [table] and the element it rendered. *)
Record Graph : Type := mkGraph {
  table : option Table;
  elem : PerspectiveViewerElement
}.

Definition initial : Graph := {| table := None; elem := render |}.

Definition schema : list (string * string) :=
  [ ("price_abc", "float");
    ("price_def", "float");
    ("upper_bound", "float");
    ("lower_bound", "float");
    ("trigger_alert", "float");
    ("ratio", "float");
    ("timestamp", "date") ]%string.

Definition row_pivots_text : string :=
  "[" ++ JSON.quoted "timestamp" ++ "]".

Definition columns_text : string :=
  "[" ++ JSON.quoted "ratio" ++ ", " ++ JSON.quoted "lower_bound" ++ ", "
      ++ JSON.quoted "upper_bound" ++ ", " ++ JSON.quoted "trigger_alert" ++ "]".

Definition aggregates : list (string * string) :=
  [ ("price_abc", "avg");
    ("price_def", "avg");
    ("upper_bound", "avg");
    ("lower_bound", "avg");
    ("trigger_alert", "avg");
    ("ratio", "avg");
    ("timestamp", "distinct count") ]%string.

Definition componentDidMount (window : Window) (this : Graph) : Graph :=
  let this1 :=
    match perspective window ≫= worker with
    | Some w => {| table := Some (worker_table w schema); elem := elem this |}
    | None => this
    end in
  match table this1 with
  | Some _ =>
      {| table := table this1;
         elem :=
           setAttribute "aggregates" (JSON.stringify aggregates)
             (setAttribute "columns" columns_text
                (setAttribute "row-pivots" row_pivots_text
                   (setAttribute "view" "y_line" (load (elem this1))))) |}
  | None => this1
  end.

(** [props_data] is [this.props.data]. *)
Definition componentDidUpdate (props_data : list ServerRespond) (this : Graph)
  : completion Graph :=
  match table this with
  | Some t =>
      row ← generateRow props_data;
      mret {| table := Some (update t [row]); elem := elem this |}
  | None => mret this
  end.

(** The rows a tick submitted: the batches the table has after it that
    it did not have before. *)
Definition submitted (before after : Graph) : list (list Row) :=
  match table before, table after with
  | Some t, Some t' => drop (length (batches t)) (batches t')
  | _, _ => []
  end.

(** What the specification asks of the view, to compare with [schema]
    and [aggregates]: a number (present or not) is a float, averaged on
    merge; the Date has the temporal type, which a perspective schema spells
    [date], and is counted (distinct count), not averaged. *)
Definition spec_type (ty : field_type) : string :=
  match ty with
  | TDate => "date"
  | TNumber | TNumberOrUndefined => "float"
  end.

Definition spec_aggregate (ty : field_type) : string :=
  match ty with
  | TDate => "distinct count"
  | TNumber | TNumberOrUndefined => "avg"
  end.

Definition spec_columns : list string :=
  ["ratio"; "lower_bound"; "upper_bound"; "trigger_alert"]%string.

(** The value an object literal (or the object read from a JSON text)
    gives a key. *)
Definition property (o : list (string * string)) (k : string) : option string :=
  (list_to_map o : gmap string string) !! k.

End Graph.

Import DataStreamer DataManipulator.

(** The two instruments of the scenarios, with their timestamps. *)
Definition abc (ask bid : float) : ServerRespond := quote "ABC" ask bid 10.
Definition def (ask bid : float) : ServerRespond := quote "DEF" ask bid 20.

(** An element whose order objects are there without their [price]. *)
Definition unpriced (name : string) (ts : Z) : ServerRespond :=
  {| stock := name;
     top_bid := Some {| price := None |};
     top_ask := Some {| price := None |};
     DataStreamer.timestamp := ts |}.

(** ** The reducer in the store

    [generateRow] once more, with the objects it works on kept in a store
    that every step receives and hands on. In this form a write to the
    argument, a read of another object and a value kept from one call to the
    next are things a function can do; the properties below say that this
    one does none of them. *)

Module Store.

Definition loc : Type := positive.

(** One map per class of object: the arrays (the locations of their
    elements), the quote objects and the rows. A location that holds no
    object reads as [undefined]. *)
Record store : Type := mkStore {
  arrays : gmap loc (list loc);
  objects : gmap loc ServerRespond;
  rows : gmap loc Row
}.

(** A call ends with a value or with an exception, and with the store it
    leaves in either case. *)
Inductive outcome (A : Type) : Type :=
  | Done (a : A) (h : store)
  | Raised (e : exn) (h : store).
Arguments Done {A} a h.
Arguments Raised {A} e h.

Definition St (A : Type) : Type := store -> outcome A.

#[global] Instance St_ret : MRet St := fun A (a : A) (h : store) => Done a h.
#[global] Instance St_bind : MBind St :=
  fun A B (k : A -> St B) (m : St A) (h : store) =>
    match m h with
    | Done a h' => k a h'
    | Raised e h' => Raised e h'
    end.

(** [array[i]]: the reference at index [i], [undefined] past the end. *)
Definition elementAt (array : loc) (i : nat) : St (option loc) :=
  fun h =>
    match arrays h !! array with
    | Some elements => Done (elements !! i) h
    | None => Raised TypeError h
    end.

(** The object a property is read from: the read throws on [undefined]. *)
Definition object_of (reference : option loc) : St ServerRespond :=
  fun h =>
    match reference ≫= (fun l => objects h !! l) with
    | Some s => Done s h
    | None => Raised TypeError h
    end.

Definition lift {A : Type} (c : completion A) : St A :=
  fun h =>
    match c with
    | Return a => Done a h
    | Throw e => Raised e h
    end.

(** The object literal: a new row at a location that held none. *)
Definition allocate (r : Row) : St loc :=
  fun h =>
    let l := fresh (dom (rows h)) in
    Done l {| arrays := arrays h;
              objects := objects h;
              rows := <[l := r]> (rows h) |}.

Definition generateRow (serverRespond : loc) : St loc :=
  e ← elementAt serverRespond 0;
  s ← object_of e;
  ask0 ← lift (deref (top_ask s));
  e ← elementAt serverRespond 0;
  s ← object_of e;
  bid0 ← lift (deref (top_bid s));
  let priceABC := ((to_number (price ask0) + to_number (price bid0)) / 2)%float in
  e ← elementAt serverRespond 1;
  s ← object_of e;
  ask1 ← lift (deref (top_ask s));
  e ← elementAt serverRespond 1;
  s ← object_of e;
  bid1 ← lift (deref (top_bid s));
  let priceDEF := ((to_number (price ask1) + to_number (price bid1)) / 2)%float in
  let ratio := (priceABC / priceDEF)%float in
  e ← elementAt serverRespond 0;
  s0 ← object_of e;
  e ← elementAt serverRespond 1;
  s1 ← object_of e;
  allocate
    {| price_abc := priceABC;
       price_def := priceDEF;
       ratio := ratio;
       timestamp :=
         if DataStreamer.timestamp s1 <? DataStreamer.timestamp s0
         then DataStreamer.timestamp s0 else DataStreamer.timestamp s1;
       upper_bound := upperBound;
       lower_bound := lowerBound;
       trigger_alert :=
         if (upperBound <? ratio)%float || (ratio <? lowerBound)%float
         then Some ratio else None |}.

(** The quotes an array of the store holds, element by element. *)
Definition input (h : store) (array : loc) : option (list ServerRespond) :=
  elements ← arrays h !! array;
  mapM (fun l => objects h !! l) elements.

(** [h'] is [h] with the row [r] added at [l], which held nothing, and
    nothing else changed. *)
Definition adds_row (h h' : store) (l : loc) (r : Row) : Prop :=
  arrays h' = arrays h
  /\ objects h' = objects h
  /\ rows h !! l = None
  /\ rows h' = <[l := r]> (rows h).

End Store.

(** The same element under another instrument name. *)
Definition rename (name : string) (s : ServerRespond) : ServerRespond :=
  {| stock := name;
     top_bid := top_bid s;
     top_ask := top_ask s;
     DataStreamer.timestamp := DataStreamer.timestamp s |}.

(** A run of update ticks: [componentDidUpdate] is called once per update
    of the props, one call after the other, each on the component the
    previous call left; an exception ends the run. *)
Fixpoint ticks (updates : list (list ServerRespond)) (this : Graph.Graph)
  : completion Graph.Graph :=
  match updates with
  | [] => mret this
  | props_data :: later =>
      this' ← Graph.componentDidUpdate props_data this;
      ticks later this'
  end.

(** The names of the attributes [componentDidMount] sets. *)
Definition view_attributes : list string :=
  ["view"; "row-pivots"; "columns"; "aggregates"]%string.

(** Two stores that hold the quotes of scenario A: one where no row was
    made yet, one that already has a row and keeps its array elsewhere. *)
Definition store_new : Store.store :=
  {| Store.arrays := {[ 1%positive := [2%positive; 3%positive] ]};
     Store.objects := {[ 2%positive := abc 101 99; 3%positive := def 50 50 ]};
     Store.rows := ∅ |}.

Definition store_used : Store.store :=
  {| Store.arrays := {[ 4%positive := [5%positive; 6%positive] ]};
     Store.objects := {[ 5%positive := abc 101 99; 6%positive := def 50 50 ]};
     Store.rows := {[ 1%positive := mkRow 1 1 1 5 1.05 0.95 None ]} |}.

(** * Properties *)

(** ** The reducer on the inputs it accepts *)

Section Reducer.

Lemma has_orders_inv (s : ServerRespond) :
  has_orders s = true ->
  exists ask bid, top_ask s = Some ask /\ top_bid s = Some bid.
Proof.
  unfold has_orders. intros H.
  apply andb_prop in H as [Ha Hb].
  apply bool_decide_eq_true in Ha as [ask Ha].
  apply bool_decide_eq_true in Hb as [bid Hb].
  eauto.
Qed.

(** What [generateRow] returns when the order objects of the first two
    elements are there. *)
Lemma generateRow_orders (q0 q1 : ServerRespond) rest ask0 bid0 ask1 bid1 :
  top_ask q0 = Some ask0 -> top_bid q0 = Some bid0 ->
  top_ask q1 = Some ask1 -> top_bid q1 = Some bid1 ->
  let priceABC := ((to_number (price ask0) + to_number (price bid0)) / 2)%float in
  let priceDEF := ((to_number (price ask1) + to_number (price bid1)) / 2)%float in
  generateRow (q0 :: q1 :: rest) =
  Return {| price_abc := priceABC;
            price_def := priceDEF;
            ratio := (priceABC / priceDEF)%float;
            timestamp :=
              if DataStreamer.timestamp q1 <? DataStreamer.timestamp q0
              then DataStreamer.timestamp q0 else DataStreamer.timestamp q1;
            upper_bound := upperBound;
            lower_bound := lowerBound;
            trigger_alert :=
              if ((upperBound <? priceABC / priceDEF)
                  || (priceABC / priceDEF <? lowerBound))%float
              then Some (priceABC / priceDEF)%float else None |}.
Proof.
  intros Ha0 Hb0 Ha1 Hb1 priceABC priceDEF. unfold generateRow. cbn.
  rewrite Ha0. cbn. rewrite Hb0. cbn. rewrite Ha1. cbn. rewrite Hb1.
  reflexivity.
Qed.

Lemma upperBound_eq : upperBound = 1.05%float.
Proof. reflexivity. Qed.

Lemma lowerBound_eq : lowerBound = 0.95%float.
Proof. reflexivity. Qed.

(** Every returned record comes from two elements with their orders. *)
Lemma generateRow_Return_inv (qs : list ServerRespond) (r : Row) :
  generateRow qs = Return r ->
  exists q0 q1 rest,
    qs = q0 :: q1 :: rest /\ has_orders q0 = true /\ has_orders q1 = true.
Proof.
  unfold generateRow.
  destruct qs as [|q0 [|q1 rest]]; cbn.
  - discriminate.
  - destruct (top_ask q0); cbn; [|discriminate].
    destruct (top_bid q0); cbn; discriminate.
  - destruct (top_ask q0) eqn:Ha0; cbn; [|discriminate].
    destruct (top_bid q0) eqn:Hb0; cbn; [|discriminate].
    destruct (top_ask q1) eqn:Ha1; cbn; [|discriminate].
    destruct (top_bid q1) eqn:Hb1; cbn; [|discriminate].
    intros _. exists q0, q1, rest. unfold has_orders.
    rewrite Ha0, Hb0, Ha1, Hb1. repeat split; reflexivity.
Qed.

End Reducer.

(** C1: for every pair of quotes the reducer returns a record whose
    [trigger_alert] is present exactly when [ratio > 1.05] or
    [ratio < 0.95]; when present it is the ratio itself, and when absent it
    is [undefined] ([None]), not a number. *)
Theorem trigger_alert_iff_outside_bounds (q0 q1 : ServerRespond) rest :
  has_orders q0 = true -> has_orders q1 = true ->
  exists r,
    generateRow (q0 :: q1 :: rest) = Return r
    /\ (is_Some (trigger_alert r) <->
        (1.05 <? ratio r)%float = true \/ (ratio r <? 0.95)%float = true)
    /\ (forall v, trigger_alert r = Some v -> v = ratio r)
    /\ (trigger_alert r = None <->
        (1.05 <? ratio r)%float = false /\ (ratio r <? 0.95)%float = false).
Proof.
  intros H0 H1.
  destruct (has_orders_inv q0 H0) as (ask0 & bid0 & Ha0 & Hb0).
  destruct (has_orders_inv q1 H1) as (ask1 & bid1 & Ha1 & Hb1).
  rewrite (generateRow_orders q0 q1 rest ask0 bid0 ask1 bid1) by assumption.
  eexists. split; [reflexivity|]. cbn [trigger_alert ratio].
  rewrite upperBound_eq, lowerBound_eq.
  set (x := (_ / _)%float).
  unfold is_Some.
  destruct (1.05 <? x)%float eqn:Hup; destruct (x <? 0.95)%float eqn:Hlo; cbn;
    (split;
     [ split; [ intros [v Hv]; (discriminate Hv || auto)
              | intros [H|H]; (discriminate H || eauto) ]
     | split;
       [ intros v Hv; (discriminate Hv || (injection Hv as <-; reflexivity))
       | split; [ intros H; (discriminate H || auto)
                | intros [Ha Hb];
                  (discriminate Ha || discriminate Hb || reflexivity) ] ] ]).
Qed.

Lemma trigger_alert_iff_outside_bounds_witness :
  exists r,
    generateRow [abc 101 99; def 50 50] = Return r
    /\ (is_Some (trigger_alert r) <->
        (1.05 <? ratio r)%float = true \/ (ratio r <? 0.95)%float = true)
    /\ (forall v, trigger_alert r = Some v -> v = ratio r)
    /\ (trigger_alert r = None <->
        (1.05 <? ratio r)%float = false /\ (ratio r <? 0.95)%float = false).
Proof.
  apply (trigger_alert_iff_outside_bounds (abc 101 99) (def 50 50) []);
    reflexivity.
Defined.

(** C2: for every pair of quotes, [price_abc] is the mean of the ask and
    the bid of the first one, [price_def] the mean of the ask and the bid of
    the second one, and [ratio] is [price_abc / price_def], each with the
    binary64 operation of the source. *)
Theorem mid_prices_and_ratio (n0 n1 : string) (ask0 bid0 ask1 bid1 : float)
    (t0 t1 : Z) (rest : list ServerRespond) :
  exists r,
    generateRow (quote n0 ask0 bid0 t0 :: quote n1 ask1 bid1 t1 :: rest) = Return r
    /\ price_abc r = ((ask0 + bid0) / 2)%float
    /\ price_def r = ((ask1 + bid1) / 2)%float
    /\ ratio r = (price_abc r / price_def r)%float.
Proof.
  eexists. split; [reflexivity|]. cbn. repeat split.
Qed.

(** C3: for every pair of quotes, the timestamp of the record is the
    later of the two input timestamps, and when the two are equal it is equal
    to both. *)
Theorem timestamp_is_max (n0 n1 : string) (ask0 bid0 ask1 bid1 : float)
    (t0 t1 : Z) (rest : list ServerRespond) :
  exists r,
    generateRow (quote n0 ask0 bid0 t0 :: quote n1 ask1 bid1 t1 :: rest) = Return r
    /\ timestamp r = Z.max t0 t1
    /\ (t0 = t1 -> timestamp r = t0 /\ timestamp r = t1).
Proof.
  eexists. split; [reflexivity|]. cbn [timestamp DataStreamer.timestamp quote].
  destruct (Z.ltb_spec t1 t0); split; try lia; intros ->; lia.
Qed.

(** C6: every record the reducer returns has [upper_bound] 1.05 and
    [lower_bound] 0.95, whatever the input, and the two add up to 2. *)
Theorem bounds_are_constant (qs : list ServerRespond) (r : Row) :
  generateRow qs = Return r ->
  upper_bound r = 1.05%float
  /\ lower_bound r = 0.95%float
  /\ (upper_bound r + lower_bound r)%float = 2%float.
Proof.
  intros Hr.
  destruct (generateRow_Return_inv qs r Hr) as (q0 & q1 & rest & -> & H0 & H1).
  destruct (has_orders_inv q0 H0) as (ask0 & bid0 & Ha0 & Hb0).
  destruct (has_orders_inv q1 H1) as (ask1 & bid1 & Ha1 & Hb1).
  rewrite (generateRow_orders q0 q1 rest ask0 bid0 ask1 bid1) in Hr by assumption.
  injection Hr as <-. cbn [upper_bound lower_bound].
  repeat split; reflexivity.
Qed.

Lemma bounds_are_constant_witness :
  upper_bound (mkRow 100 50 2 20 1.05 0.95 (Some 2%float)) = 1.05%float
  /\ lower_bound (mkRow 100 50 2 20 1.05 0.95 (Some 2%float)) = 0.95%float
  /\ (upper_bound (mkRow 100 50 2 20 1.05 0.95 (Some 2%float))
      + lower_bound (mkRow 100 50 2 20 1.05 0.95 (Some 2%float)))%float = 2%float.
Proof.
  apply (bounds_are_constant [abc 101 99; def 50 50]). reflexivity.
Defined.

(** C10: an input with at least two elements is read at indices 0 and 1
    only: two inputs that agree there give the same result whatever follows,
    which is the result on the two elements alone, and when these are quotes
    it is a record, not an error. *)
Theorem extra_elements_ignored (q0 q1 : ServerRespond)
    (rest1 rest2 : list ServerRespond) :
  generateRow (q0 :: q1 :: rest1) = generateRow (q0 :: q1 :: rest2)
  /\ generateRow (q0 :: q1 :: rest1) = generateRow [q0; q1]
  /\ (forall e, generateRow (q0 :: q1 :: rest1) = Throw e ->
                generateRow [q0; q1] = Throw e)
  /\ (forall n0 n1 ask0 bid0 ask1 bid1 t0 t1,
        q0 = quote n0 ask0 bid0 t0 -> q1 = quote n1 ask1 bid1 t1 ->
        exists r, generateRow (q0 :: q1 :: rest1) = Return r).
Proof.
  assert (Hsame : forall rest, generateRow (q0 :: q1 :: rest) = generateRow [q0; q1])
    by reflexivity.
  repeat split.
  - intros e He. exact He.
  - intros n0 n1 ask0 bid0 ask1 bid1 t0 t1 -> ->. eexists. reflexivity.
Qed.

(** ** Binary64 facts about a division by zero and the bound test *)

Section Binary64.
#[local] Open Scope float_scope.

Lemma is_zero_SF (y : float) :
  is_zero y = true <-> exists s, Prim2SF y = S754_zero s.
Proof.
  unfold is_zero. rewrite FloatAxioms.eqb_spec.
  change (Prim2SF PrimFloat.zero) with (S754_zero false).
  destruct (Prim2SF y) as [s|s| |s m e]; cbn.
  - split; eauto.
  - destruct s; split; try discriminate; intros [? ?]; discriminate.
  - split; try discriminate; intros [? ?]; discriminate.
  - destruct s; split; try discriminate; intros [? ?]; discriminate.
Qed.

Lemma is_nan_SF (x : float) : is_nan x = true <-> Prim2SF x = S754_nan.
Proof.
  unfold is_nan. rewrite FloatAxioms.eqb_spec.
  destruct (Prim2SF x) as [s|s| |s m e]; cbn.
  - split; discriminate.
  - destruct s; split; discriminate.
  - split; reflexivity.
  - unfold SFeqb, SFcompare. rewrite Z.compare_refl.
    rewrite Pos.compare_cont_refl. destruct s; split; discriminate.
Qed.

Lemma is_infinity_SF (x : float) :
  is_infinity x = true <-> exists s, Prim2SF x = S754_infinity s.
Proof.
  unfold is_infinity. rewrite FloatAxioms.eqb_spec, abs_spec.
  change (Prim2SF infinity) with (S754_infinity false).
  destruct (Prim2SF x) as [s|s| |s m e]; cbn.
  - split; try discriminate; intros [? ?]; discriminate.
  - split; eauto.
  - split; try discriminate; intros [? ?]; discriminate.
  - split; try discriminate; intros [? ?]; discriminate.
Qed.

(** [x / 0] is an infinity when [x] is neither NaN nor a zero. *)
Lemma div_by_zero_infinite (x y : float) :
  is_zero y = true -> is_nan x = false -> is_zero x = false ->
  is_infinity (x / y) = true.
Proof.
  intros Hy Hn Hz. apply is_zero_SF in Hy as [sy Hy].
  apply is_infinity_SF. rewrite div_spec, Hy.
  destruct (Prim2SF x) as [s|s| |s m e] eqn:E; cbn; eauto.
  - assert (is_zero x = true) by (apply is_zero_SF; eauto). congruence.
  - assert (is_nan x = true) by (apply is_nan_SF; assumption). congruence.
Qed.

(** [x / 0] is NaN when [x] is NaN or a zero. *)
Lemma div_by_zero_nan (x y : float) :
  is_zero y = true -> is_nan x || is_zero x = true ->
  is_nan (x / y) = true.
Proof.
  intros Hy Hx. apply is_zero_SF in Hy as [sy Hy].
  apply is_nan_SF. rewrite div_spec, Hy.
  apply orb_prop in Hx as [Hx|Hx].
  - apply is_nan_SF in Hx. rewrite Hx. reflexivity.
  - apply is_zero_SF in Hx as [sx Hx]. rewrite Hx. reflexivity.
Qed.

(** An infinity is outside the bounds; NaN is not: every comparison with
    NaN is false. *)
Lemma infinity_outside_bounds (r : float) :
  is_infinity r = true -> (1.05 <? r) || (r <? 0.95) = true.
Proof.
  intros Hr. apply is_infinity_SF in Hr as [s Hr].
  rewrite !ltb_spec, Hr. destruct s; vm_compute; reflexivity.
Qed.

Lemma nan_inside_bounds (r : float) :
  is_nan r = true -> (1.05 <? r) || (r <? 0.95) = false.
Proof.
  intros Hr. apply is_nan_SF in Hr.
  rewrite !ltb_spec, Hr. vm_compute. reflexivity.
Qed.

(** The mid-price is NaN as soon as one of the two prices is missing. *)
Lemma mid_price_missing (ask bid : option float) :
  ask = None \/ bid = None ->
  is_nan ((to_number ask + to_number bid) / 2) = true.
Proof.
  intros H. apply is_nan_SF. rewrite div_spec, add_spec.
  destruct H as [-> | ->]; cbn [to_number].
  - change (Prim2SF nan) with S754_nan. reflexivity.
  - change (Prim2SF nan) with S754_nan.
    destruct (Prim2SF (to_number ask)); reflexivity.
Qed.

End Binary64.

(** ** Inputs that are not a pair of quotes *)

Section Rejected.

Lemma generateRow_short (qs : list ServerRespond) :
  (length qs < 2)%nat -> generateRow qs = Throw TypeError.
Proof.
  destruct qs as [|q0 [|q1 rest]]; cbn [length]; intros Hlen; try lia.
  - reflexivity.
  - unfold generateRow. cbn.
    destruct (top_ask q0); cbn; [|reflexivity].
    destruct (top_bid q0); reflexivity.
Qed.

Lemma generateRow_no_orders (q0 q1 : ServerRespond) rest :
  has_orders q0 && has_orders q1 = false ->
  generateRow (q0 :: q1 :: rest) = Throw TypeError.
Proof.
  unfold has_orders, generateRow. cbn.
  destruct (top_ask q0); cbn; [|reflexivity].
  destruct (top_bid q0); cbn; [|reflexivity].
  destruct (top_ask q1); cbn; [|reflexivity].
  destruct (top_bid q1); cbn; [discriminate|reflexivity].
Qed.

Lemma has_prices_false (s : ServerRespond) ask bid :
  top_ask s = Some ask -> top_bid s = Some bid -> has_prices s = false ->
  price ask = None \/ price bid = None.
Proof.
  unfold has_prices. intros -> ->.
  destruct (price ask); [|auto]. destruct (price bid); [|auto].
  discriminate.
Qed.

End Rejected.

(** C4, as the code has it: the reducer throws, and returns no record,
    exactly when the input has fewer than two elements or one of its first
    two elements lacks its [top_ask] or [top_bid] object; the exception is the
    TypeError of the property read (the code has no error class of its own).
    When both order objects are there the reducer returns a record even if a
    [price] is missing: the mid-price of that element is then NaN. *)
Theorem generateRow_throws_iff (qs : list ServerRespond) :
  (generateRow qs = Throw TypeError <->
     (length qs < 2)%nat \/ Exists (fun s => has_orders s = false) (take 2 qs))
  /\ ((exists e, generateRow qs = Throw e) <-> ~ (exists r, generateRow qs = Return r))
  /\ (forall q0 q1 rest,
        qs = q0 :: q1 :: rest -> has_orders q0 = true -> has_orders q1 = true ->
        exists r,
          generateRow qs = Return r
          /\ (has_prices q0 = false -> is_nan (price_abc r) = true)
          /\ (has_prices q1 = false -> is_nan (price_def r) = true)).
Proof.
  split; [|split].
  - split.
    + intros Hthrow.
      destruct qs as [|q0 [|q1 rest]]; cbn [length]; [left; lia|left; lia|].
      right. cbn [take].
      destruct (has_orders q0) eqn:H0; [|by apply Exists_cons_hd].
      destruct (has_orders q1) eqn:H1; [|by apply Exists_cons_tl, Exists_cons_hd].
      destruct (has_orders_inv q0 H0) as (ask0 & bid0 & Ha0 & Hb0).
      destruct (has_orders_inv q1 H1) as (ask1 & bid1 & Ha1 & Hb1).
      rewrite (generateRow_orders q0 q1 rest ask0 bid0 ask1 bid1) in Hthrow
        by assumption.
      discriminate.
    + intros [Hlen|Hex]; [by apply generateRow_short|].
      destruct qs as [|q0 [|q1 rest]]; [reflexivity|by apply generateRow_short; cbn; lia|].
      apply generateRow_no_orders. cbn [take] in Hex.
      apply Exists_cons in Hex as [->|Hex]; [reflexivity|].
      apply Exists_cons in Hex as [->|Hex]; [apply andb_false_r|].
      by apply Exists_nil in Hex.
  - destruct (generateRow qs) as [r|e].
    + split; [intros [e He]; discriminate|intros Hn; destruct Hn; eauto].
    + split; [intros _ [r Hr]; discriminate|eauto].
  - intros q0 q1 rest -> H0 H1.
    destruct (has_orders_inv q0 H0) as (ask0 & bid0 & Ha0 & Hb0).
    destruct (has_orders_inv q1 H1) as (ask1 & bid1 & Ha1 & Hb1).
    rewrite (generateRow_orders q0 q1 rest ask0 bid0 ask1 bid1) by assumption.
    eexists. split; [reflexivity|]. cbn [price_abc price_def].
    split; intros Hp; apply mid_price_missing; eapply has_prices_false; eauto.
Qed.

(** C4 fails as stated: two elements without any price are not rejected,
    the reducer returns a record for them. *)
Lemma missing_prices_not_rejected :
  has_prices (unpriced "ABC" 10) = false
  /\ has_prices (unpriced "DEF" 20) = false
  /\ (exists r, generateRow [unpriced "ABC" 10; unpriced "DEF" 20] = Return r)
  /\ ~ (exists e, generateRow [unpriced "ABC" 10; unpriced "DEF" 20] = Throw e).
Proof.
  repeat split.
  - eexists. reflexivity.
  - intros [e He]. discriminate He.
Qed.

(** ** A second mid-price equal to zero *)

(** C5, as the code has it: when the mid-price of the second quote is a
    zero the reducer still returns a record and its ratio is not finite. If
    the first mid-price is neither a zero nor NaN the ratio is an infinity and
    [trigger_alert] is that ratio; if it is a zero or NaN the ratio is NaN,
    which is outside no bound, and [trigger_alert] is absent. *)
Theorem zero_divisor_ratio (n0 n1 : string) (ask0 bid0 ask1 bid1 : float)
    (t0 t1 : Z) (rest : list ServerRespond) :
  is_zero ((ask1 + bid1) / 2) = true ->
  exists r,
    generateRow (quote n0 ask0 bid0 t0 :: quote n1 ask1 bid1 t1 :: rest) = Return r
    /\ price_def r = ((ask1 + bid1) / 2)%float
    /\ is_finite (ratio r) = false
    /\ (is_nan (price_abc r) || is_zero (price_abc r) = false ->
        is_infinity (ratio r) = true /\ trigger_alert r = Some (ratio r))
    /\ (is_nan (price_abc r) || is_zero (price_abc r) = true ->
        is_nan (ratio r) = true /\ trigger_alert r = None).
Proof.
  intros Hzero. eexists. split; [reflexivity|].
  cbn [price_abc price_def ratio trigger_alert to_number price].
  rewrite upperBound_eq, lowerBound_eq.
  set (a := ((ask0 + bid0) / 2)%float) in *.
  set (b := ((ask1 + bid1) / 2)%float) in *.
  assert (Hinf : is_nan a || is_zero a = false ->
                 is_infinity (a / b) = true).
  { intros H. apply orb_false_elim in H as [Hn Hz].
    by apply div_by_zero_infinite. }
  assert (Hnan : is_nan a || is_zero a = true -> is_nan (a / b) = true).
  { intros H. by apply div_by_zero_nan. }
  split; [reflexivity|]. split; [|split].
  - unfold is_finite. destruct (is_nan a || is_zero a) eqn:E.
    + rewrite Hnan; reflexivity.
    + rewrite (Hinf eq_refl), orb_true_r. reflexivity.
  - intros H. split; [auto|].
    rewrite infinity_outside_bounds by auto. reflexivity.
  - intros H. split; [auto|].
    rewrite nan_inside_bounds by auto. reflexivity.
Qed.

Lemma zero_divisor_ratio_witness :
  exists r,
    generateRow [abc 101 99; def 0 0] = Return r
    /\ price_def r = ((0 + 0) / 2)%float
    /\ is_finite (ratio r) = false
    /\ (is_nan (price_abc r) || is_zero (price_abc r) = false ->
        is_infinity (ratio r) = true /\ trigger_alert r = Some (ratio r))
    /\ (is_nan (price_abc r) || is_zero (price_abc r) = true ->
        is_nan (ratio r) = true /\ trigger_alert r = None).
Proof.
  apply (zero_divisor_ratio "ABC" "DEF" 101 99 0 0 10 20 []). reflexivity.
Defined.

(** C5 fails as stated: with both mid-prices zero the ratio is NaN and no
    alert is present. *)
Lemma zero_over_zero_no_alert :
  is_zero ((0 + 0) / 2) = true
  /\ (exists r,
        generateRow [abc 0 0; def 0 0] = Return r
        /\ is_zero (price_def r) = true
        /\ is_nan (ratio r) = true
        /\ trigger_alert r = None)
  /\ ~ (exists r,
         generateRow [abc 0 0; def 0 0] = Return r
         /\ trigger_alert r = Some (ratio r)).
Proof.
  split; [reflexivity|]. split.
  - eexists. repeat split.
  - intros (r & Hr & Ha). injection Hr as <-. discriminate Ha.
Qed.

(** ** Purity *)

Section Ticks.
Import Graph.

Lemma submitted_update (this : Graph) (t : Table) (data : list Row) :
  table this = Some t ->
  submitted this {| table := Some (update t data); elem := elem this |} = [data].
Proof.
  intros Ht. unfold submitted. rewrite Ht. cbn.
  rewrite drop_app_length. reflexivity.
Qed.

Lemma componentDidUpdate_table (data : list ServerRespond) (this : Graph) t :
  table this = Some t ->
  componentDidUpdate data this =
  row ← generateRow data;
  mret {| table := Some (update t [row]); elem := elem this |}.
Proof. intros Ht. unfold componentDidUpdate. rewrite Ht. reflexivity. Qed.

End Ticks.

(** ** The reducer and the store *)

Section InStore.
Import Store.

Lemma input_inv (h : store) (array : loc) (qs : list ServerRespond) :
  input h array = Some qs ->
  exists elements,
    arrays h !! array = Some elements
    /\ Forall2 (fun l q => objects h !! l = Some q) elements qs.
Proof.
  unfold input. intros H.
  destruct (arrays h !! array) as [elements|]; [|discriminate H].
  exists elements. split; [reflexivity|]. by apply mapM_Some.
Qed.

(** On a store that holds the quotes [qs] at [array], the call in the store
    does what [generateRow qs] does: it throws and leaves the store as it
    was, or it adds the record at a new location and returns that. *)
Lemma generateRow_in_store (h : store) (array : loc) (qs : list ServerRespond) :
  input h array = Some qs ->
  Store.generateRow array h =
  match DataManipulator.generateRow qs with
  | Return r =>
      Done (fresh (dom (rows h)))
           {| arrays := arrays h;
              objects := objects h;
              rows := <[fresh (dom (rows h)) := r]> (rows h) |}
  | Throw e => Raised e h
  end.
Proof.
  intros Hin. destruct (input_inv h array qs Hin) as (els & Harr & Hall).
  unfold Store.generateRow, DataManipulator.generateRow.
  unfold mbind, St_bind, elementAt, object_of, lift, allocate.
  destruct Hall as [|l0 q0 els0 qs0 H0 Hall].
  { rewrite Harr. reflexivity. }
  destruct Hall as [|l1 q1 els1 qs1 H1 Hall].
  - repeat (progress (rewrite ?Harr, ?H0; cbn -[upperBound lowerBound])).
    destruct (top_ask q0); cbn -[upperBound lowerBound]; [|reflexivity].
    repeat (progress (rewrite ?Harr, ?H0; cbn -[upperBound lowerBound])).
    destruct (top_bid q0); cbn -[upperBound lowerBound]; [|reflexivity].
    repeat (progress (rewrite ?Harr, ?H0; cbn -[upperBound lowerBound])).
    reflexivity.
  - repeat (progress (rewrite ?Harr, ?H0, ?H1; cbn -[upperBound lowerBound])).
    destruct (top_ask q0); cbn -[upperBound lowerBound]; [|reflexivity].
    repeat (progress (rewrite ?Harr, ?H0, ?H1; cbn -[upperBound lowerBound])).
    destruct (top_bid q0); cbn -[upperBound lowerBound]; [|reflexivity].
    repeat (progress (rewrite ?Harr, ?H0, ?H1; cbn -[upperBound lowerBound])).
    destruct (top_ask q1); cbn -[upperBound lowerBound]; [|reflexivity].
    repeat (progress (rewrite ?Harr, ?H0, ?H1; cbn -[upperBound lowerBound])).
    destruct (top_bid q1); cbn -[upperBound lowerBound]; [|reflexivity].
    repeat (progress (rewrite ?Harr, ?H0, ?H1; cbn -[upperBound lowerBound])).
    reflexivity.
Qed.

Lemma input_after_row (h : store) (array : loc) (l : loc) (r : Row) :
  input {| arrays := arrays h; objects := objects h;
           rows := <[l := r]> (rows h) |} array
  = input h array.
Proof. reflexivity. Qed.

Lemma fresh_row_free (h : store) : rows h !! fresh (dom (rows h)) = None.
Proof. apply not_elem_of_dom. apply is_fresh. Qed.

End InStore.

(** C7: two calls of the reducer on identical quotes, in any two stores
    and on any two arrays that hold them, either both throw the same
    exception and leave their stores untouched, or both return a new record,
    the two records being the same field by field; each call leaves its
    arrays, its quote objects and its earlier rows as they were and only adds
    its record at a location that held nothing. Nothing is carried from one
    call to the next: a second call on the store the first one left returns
    the same record again, at another location, and the first record is
    still there. *)
Theorem generateRow_pure (h1 h2 : Store.store) (array1 array2 : Store.loc)
    (qs : list ServerRespond) :
  Store.input h1 array1 = Some qs ->
  Store.input h2 array2 = Some qs ->
  (exists e,
     generateRow qs = Throw e
     /\ Store.generateRow array1 h1 = Store.Raised e h1
     /\ Store.generateRow array2 h2 = Store.Raised e h2)
  \/ (exists r l1 l2 h1' h2',
        generateRow qs = Return r
        /\ Store.generateRow array1 h1 = Store.Done l1 h1'
        /\ Store.generateRow array2 h2 = Store.Done l2 h2'
        /\ Store.rows h1' !! l1 = Some r
        /\ Store.rows h2' !! l2 = Some r
        /\ Store.adds_row h1 h1' l1 r
        /\ Store.adds_row h2 h2' l2 r
        /\ Store.input h1' array1 = Some qs
        /\ exists l1'' h1'',
             Store.generateRow array1 h1' = Store.Done l1'' h1''
             /\ Store.adds_row h1' h1'' l1'' r
             /\ l1'' <> l1
             /\ Store.rows h1'' !! l1'' = Some r
             /\ Store.rows h1'' !! l1 = Some r).
Proof.
  intros Hin1 Hin2.
  rewrite (generateRow_in_store h1 array1 qs Hin1).
  rewrite (generateRow_in_store h2 array2 qs Hin2).
  destruct (generateRow qs) as [r|e] eqn:Hr; [right|left; eauto].
  set (l1 := fresh (dom (Store.rows h1))).
  set (l2 := fresh (dom (Store.rows h2))).
  set (h1' := {| Store.arrays := Store.arrays h1;
                 Store.objects := Store.objects h1;
                 Store.rows := <[l1 := r]> (Store.rows h1) |}).
  assert (Hin1' : Store.input h1' array1 = Some qs) by exact Hin1.
  exists r, l1, l2, h1',
    {| Store.arrays := Store.arrays h2;
       Store.objects := Store.objects h2;
       Store.rows := <[l2 := r]> (Store.rows h2) |}.
  split; [reflexivity|]. split; [reflexivity|]. split; [reflexivity|].
  split; [apply lookup_insert_eq|]. split; [apply lookup_insert_eq|].
  split; [repeat split; apply fresh_row_free|].
  split; [repeat split; apply fresh_row_free|].
  split; [exact Hin1'|].
  rewrite (generateRow_in_store h1' array1 qs Hin1'), Hr.
  set (l1'' := fresh (dom (Store.rows h1'))).
  assert (Hfree : Store.rows h1' !! l1'' = None) by apply fresh_row_free.
  assert (Hne : l1'' <> l1).
  { intros Heq. rewrite Heq in Hfree. cbn in Hfree.
    rewrite lookup_insert_eq in Hfree. discriminate Hfree. }
  exists l1''. eexists. split; [reflexivity|].
  split; [repeat split; exact Hfree|]. split; [exact Hne|].
  cbn. split; [apply lookup_insert_eq|].
  rewrite lookup_insert_ne by exact Hne.
  apply lookup_insert_eq.
Qed.

Lemma generateRow_pure_witness :
  (exists e,
     generateRow [abc 101 99; def 50 50] = Throw e
     /\ Store.generateRow 1%positive store_new = Store.Raised e store_new
     /\ Store.generateRow 4%positive store_used = Store.Raised e store_used)
  \/ (exists r l1 l2 h1' h2',
        generateRow [abc 101 99; def 50 50] = Return r
        /\ Store.generateRow 1%positive store_new = Store.Done l1 h1'
        /\ Store.generateRow 4%positive store_used = Store.Done l2 h2'
        /\ Store.rows h1' !! l1 = Some r
        /\ Store.rows h2' !! l2 = Some r
        /\ Store.adds_row store_new h1' l1 r
        /\ Store.adds_row store_used h2' l2 r
        /\ Store.input h1' 1%positive = Some [abc 101 99; def 50 50]
        /\ exists l1'' h1'',
             Store.generateRow 1%positive h1' = Store.Done l1'' h1''
             /\ Store.adds_row h1' h1'' l1'' r
             /\ l1'' <> l1
             /\ Store.rows h1'' !! l1'' = Some r
             /\ Store.rows h1'' !! l1 = Some r).
Proof.
  apply (generateRow_pure store_new store_used 1%positive 4%positive
           [abc 101 99; def 50 50]); vm_compute; reflexivity.
Defined.

(** ** The view set up at mount *)

Section View.
Import Graph.

Lemma componentDidMount_worker (window : Window) (this : Graph) p w :
  perspective window = Some p -> worker p = Some w ->
  componentDidMount window this =
  {| table := Some (worker_table w schema);
     elem :=
       setAttribute "aggregates" (JSON.stringify aggregates)
         (setAttribute "columns" columns_text
            (setAttribute "row-pivots" row_pivots_text
               (setAttribute "view" "y_line" (load (elem this))))) |}.
Proof.
  intros Hp Hw. unfold componentDidMount. rewrite Hp. cbn. rewrite Hw.
  reflexivity.
Qed.

Lemma schema_covers_Row :
  Forall (fun f => property schema f.1 = Some (spec_type f.2)) Row_interface.
Proof. repeat constructor. Qed.

Lemma aggregates_cover_Row :
  Forall (fun f => property aggregates f.1 = Some (spec_aggregate f.2))
         Row_interface.
Proof. repeat constructor. Qed.

End View.

(** C8: when perspective is there, mounting creates the table with a
    schema that gives each of the seven properties of [Row], and nothing
    else, the type float, or date for the timestamp; the viewer gets
    [timestamp] as its only row pivot and no other pivot, the aggregate avg
    for every numeric property and distinct count for the timestamp, and the
    four columns ratio, lower_bound, upper_bound and trigger_alert. *)
Theorem view_configuration (window : Graph.Window) (this : Graph.Graph)
    (p : Graph.Perspective) (w : Graph.Worker) :
  Graph.perspective window = Some p -> Graph.worker p = Some w ->
  let this' := Graph.componentDidMount window this in
  let attrs := Graph.attributes (Graph.elem this') in
  (exists t, Graph.table this' = Some t /\ Graph.table_schema t = Graph.schema)
  /\ Graph.loaded (Graph.elem this') = true
  /\ Forall (fun f => Graph.property Graph.schema f.1 = Some (Graph.spec_type f.2))
       Row_interface
  /\ length Graph.schema = length Row_interface
  /\ attrs !! "row-pivots"%string ≫= JSON.parse_array = Some ["timestamp"%string]
  /\ attrs !! "column-pivots"%string
     = Graph.attributes (Graph.elem this) !! "column-pivots"%string
  /\ (exists o,
        attrs !! "aggregates"%string ≫= JSON.parse_object = Some o
        /\ length o = length Row_interface
        /\ Forall (fun f => Graph.property o f.1 = Some (Graph.spec_aggregate f.2))
             Row_interface)
  /\ attrs !! "columns"%string ≫= JSON.parse_array = Some Graph.spec_columns.
Proof.
  intros Hp Hw this' attrs. subst attrs this'.
  rewrite (componentDidMount_worker window this p w Hp Hw).
  cbn [Graph.table Graph.elem Graph.attributes Graph.loaded
       Graph.setAttribute Graph.load].
  split; [eexists; split; reflexivity|].
  split; [reflexivity|].
  split; [apply schema_covers_Row|].
  split; [reflexivity|].
  split.
  { rewrite lookup_insert_ne by discriminate.
    rewrite lookup_insert_ne by discriminate.
    rewrite lookup_insert_eq. vm_compute. reflexivity. }
  split.
  { rewrite !lookup_insert_ne by discriminate. reflexivity. }
  split.
  { exists Graph.aggregates. rewrite lookup_insert_eq.
    split; [vm_compute; reflexivity|].
    split; [reflexivity|apply aggregates_cover_Row]. }
  rewrite lookup_insert_ne by discriminate.
  rewrite lookup_insert_eq. vm_compute. reflexivity.
Qed.

Lemma view_configuration_witness :
  let this' :=
    Graph.componentDidMount
      (Graph.mkWindow (Some (Graph.mkPerspective (Some Graph.PerspectiveWorker))))
      Graph.initial in
  let attrs := Graph.attributes (Graph.elem this') in
  (exists t, Graph.table this' = Some t /\ Graph.table_schema t = Graph.schema)
  /\ Graph.loaded (Graph.elem this') = true
  /\ Forall (fun f => Graph.property Graph.schema f.1 = Some (Graph.spec_type f.2))
       Row_interface
  /\ length Graph.schema = length Row_interface
  /\ attrs !! "row-pivots"%string ≫= JSON.parse_array = Some ["timestamp"%string]
  /\ attrs !! "column-pivots"%string
     = Graph.attributes (Graph.elem Graph.initial) !! "column-pivots"%string
  /\ (exists o,
        attrs !! "aggregates"%string ≫= JSON.parse_object = Some o
        /\ length o = length Row_interface
        /\ Forall (fun f => Graph.property o f.1 = Some (Graph.spec_aggregate f.2))
             Row_interface)
  /\ attrs !! "columns"%string ≫= JSON.parse_array = Some Graph.spec_columns.
Proof.
  apply (view_configuration
           (Graph.mkWindow (Some (Graph.mkPerspective (Some Graph.PerspectiveWorker))))
           Graph.initial
           (Graph.mkPerspective (Some Graph.PerspectiveWorker))
           Graph.PerspectiveWorker); reflexivity.
Defined.

(** ** The update tick *)

(** C9, as the code has it: a tick of a component that has its table
    calls the reducer once and, when it returns a record, submits that record
    alone, as a batch of one element, to the table's [update]; when the
    reducer throws, the exception leaves the tick and nothing is submitted.
    A tick of a component without a table submits nothing and leaves the
    component as it is. *)
Theorem tick_submits_one_row (data : list ServerRespond) (this : Graph.Graph) :
  match Graph.table this with
  | Some t =>
      match generateRow data with
      | Return row =>
          exists this',
            Graph.componentDidUpdate data this = Return this'
            /\ Graph.table this' = Some (Graph.update t [row])
            /\ Graph.batches (Graph.update t [row]) = Graph.batches t ++ [[row]]
            /\ Graph.submitted this this' = [[row]]
            /\ Graph.elem this' = Graph.elem this
      | Throw e => Graph.componentDidUpdate data this = Throw e
      end
  | None =>
      Graph.componentDidUpdate data this = Return this
      /\ Graph.submitted this this = []
  end.
Proof.
  destruct (Graph.table this) as [t|] eqn:Ht.
  - rewrite (componentDidUpdate_table data this t Ht).
    destruct (generateRow data) as [row|e]; cbn; [|reflexivity].
    eexists. split; [reflexivity|]. cbn.
    repeat split. apply (submitted_update this t [row] Ht).
  - unfold Graph.componentDidUpdate, Graph.submitted. rewrite Ht.
    split; reflexivity.
Qed.

(** C9 fails as stated: a tick of the component whose table was never
    created (perspective missing at mount) submits no record, although the
    reducer would return one for the data. *)
Lemma tick_without_table_submits_nothing :
  Graph.componentDidMount (Graph.mkWindow None) Graph.initial = Graph.initial
  /\ (exists row, generateRow [abc 101 99; def 50 50] = Return row)
  /\ Graph.componentDidUpdate [abc 101 99; def 50 50] Graph.initial
     = Return Graph.initial
  /\ Graph.submitted Graph.initial Graph.initial = [].
Proof.
  repeat split. eexists. reflexivity.
Qed.

(** ** The scenarios of the specification *)

Example scenario_A :
  generateRow [abc 101 99; def 50 50] =
  Return (mkRow 100 50 2 20 1.05 0.95 (Some 2%float)).
Proof. reflexivity. Qed.

Example scenario_B :
  generateRow [abc 100 100; def 100 100] =
  Return (mkRow 100 100 1 20 1.05 0.95 None).
Proof. reflexivity. Qed.

Example scenario_C :
  generateRow [abc 104 102; def 100 100] =
  Return (mkRow 103 100 1.03 20 1.05 0.95 None).
Proof. reflexivity. Qed.

Example scenario_D :
  generateRow [abc 101 99; def 0 0] =
  Return (mkRow 100 0 infinity 20 1.05 0.95 (Some infinity)).
Proof. reflexivity. Qed.

Example attribute_texts :
  JSON.parse_array Graph.columns_text = Some Graph.spec_columns
  /\ JSON.parse_object (JSON.stringify Graph.aggregates) = Some Graph.aggregates
  /\ JSON.parse_array Graph.row_pivots_text = Some ["timestamp"%string].
Proof. repeat split; vm_compute; reflexivity. Qed.

(** * Further properties of the reducer *)

(** ** The order of binary64 values *)

Section Order64.
#[local] Open Scope float_scope.

Lemma SFcompare_antisym (a b : spec_float) :
  SFcompare b a = CompOpp <$> SFcompare a b.
Proof.
  destruct a as [sa|sa| |sa ma ea], b as [sb|sb| |sb mb eb]; cbn;
    try reflexivity; try (destruct sa; reflexivity); try (destruct sb; reflexivity);
    try (destruct sa, sb; reflexivity).
  pose proof (Pos.compare_cont_antisym ma mb Eq) as Hm. cbn in Hm.
  destruct sa, sb; cbn; try reflexivity;
    rewrite (Z.compare_antisym ea eb); destruct (ea ?= eb)%Z; cbn;
    try reflexivity; rewrite <- Hm;
    destruct (Pos.compare_cont Eq ma mb); reflexivity.
Qed.

Lemma SFcompare_None (a b : spec_float) :
  SFcompare a b = None <-> a = S754_nan \/ b = S754_nan.
Proof.
  destruct a as [sa|sa| |sa ma ea], b as [sb|sb| |sb mb eb]; cbn;
    split; intros H; try discriminate; auto;
    try (destruct H; discriminate);
    try (destruct sa; discriminate); try (destruct sb; discriminate).
Qed.

Lemma SFadd_comm (x y : spec_float) : SF64add x y = SF64add y x.
Proof.
  unfold SF64add.
  destruct x as [sx|sx| |sx mx ex], y as [sy|sy| |sy my ey]; cbn;
    try reflexivity; try (destruct sx, sy; reflexivity).
  rewrite (Z.min_comm ey ex). f_equal. apply Z.add_comm.
Qed.

Lemma float_add_comm (x y : float) : x + y = y + x.
Proof. apply Prim2SF_inj. rewrite !add_spec. apply SFadd_comm. Qed.

(** The bound test is false exactly on NaN and on the closed band. *)
Lemma bound_test_false (x : float) :
  (1.05 <? x) || (x <? 0.95) = false <->
  is_nan x = true \/ (0.95 <=? x) && (x <=? 1.05) = true.
Proof.
  rewrite is_nan_SF, !ltb_spec, !leb_spec. unfold SFltb, SFleb.
  assert (Hu : Prim2SF 1.05 <> S754_nan) by (vm_compute; discriminate).
  assert (Hl : Prim2SF 0.95 <> S754_nan) by (vm_compute; discriminate).
  rewrite (SFcompare_antisym (Prim2SF x) (Prim2SF 1.05)).
  rewrite (SFcompare_antisym (Prim2SF x) (Prim2SF 0.95)).
  destruct (SFcompare (Prim2SF x) (Prim2SF 1.05)) as [cu|] eqn:Eu.
  - destruct (SFcompare (Prim2SF x) (Prim2SF 0.95)) as [cl|] eqn:El.
    + assert (Hx : Prim2SF x <> S754_nan).
      { intros Hx. rewrite Hx in Eu. discriminate Eu. }
      destruct cu, cl; cbn; split; intros H; try discriminate; auto;
        destruct H as [H|H]; try discriminate; contradiction.
    + apply SFcompare_None in El as [El|El]; [|contradiction].
      rewrite El in Eu. discriminate Eu.
  - apply SFcompare_None in Eu as [Eu|Eu]; [|contradiction].
    rewrite Eu. cbn. split; auto.
Qed.

Lemma bound_test_true_not_nan (x : float) :
  (1.05 <? x) || (x <? 0.95) = true -> is_nan x = false.
Proof.
  intros H. destruct (is_nan x) eqn:E; [|reflexivity].
  rewrite nan_inside_bounds in H by assumption. discriminate.
Qed.

(** A value that is at most zero is below the lower bound. *)
Lemma nonpositive_below_lower_bound (x : float) :
  (x <=? 0) = true -> (x <? 0.95) = true.
Proof.
  rewrite leb_spec, ltb_spec.
  change (Prim2SF 0) with (S754_zero false).
  assert (Hl : exists m e, Prim2SF 0.95 = S754_finite false m e)
    by (vm_compute; eauto).
  destruct Hl as (m & e & ->).
  destruct (Prim2SF x) as [s|s| |s mx ex]; cbn; try reflexivity; try discriminate;
    destruct s; cbn; try reflexivity; discriminate.
Qed.

End Order64.

(** ** The alert and the band *)

Lemma trigger_alert_eq (qs : list ServerRespond) (r : Row) :
  generateRow qs = Return r ->
  trigger_alert r =
  if ((1.05 <? ratio r) || (ratio r <? 0.95))%float then Some (ratio r) else None.
Proof.
  intros Hr.
  destruct (generateRow_Return_inv qs r Hr) as (q0 & q1 & rest & -> & H0 & H1).
  destruct (has_orders_inv q0 H0) as (ask0 & bid0 & Ha0 & Hb0).
  destruct (has_orders_inv q1 H1) as (ask1 & bid1 & Ha1 & Hb1).
  rewrite (generateRow_orders q0 q1 rest ask0 bid0 ask1 bid1) in Hr by assumption.
  injection Hr as <-. cbn [trigger_alert ratio].
  rewrite upperBound_eq, lowerBound_eq. reflexivity.
Qed.

(** X1: in every record the reducer returns, the alert is absent exactly
    when the ratio is NaN or lies in the closed band from 0.95 to 1.05, so a
    ratio equal to a bound raises no alert; an alert that is present is never
    NaN and never inside the closed band. *)
Theorem alert_absent_iff_within_band (qs : list ServerRespond) (r : Row) :
  generateRow qs = Return r ->
  (trigger_alert r = None <->
     is_nan (ratio r) = true
     \/ ((0.95 <=? ratio r) && (ratio r <=? 1.05))%float = true)
  /\ (forall v, trigger_alert r = Some v ->
        is_nan v = false /\ ((0.95 <=? v) && (v <=? 1.05))%float = false).
Proof.
  intros Hr. rewrite (trigger_alert_eq qs r Hr).
  pose proof (bound_test_false (ratio r)) as Hband.
  destruct ((1.05 <? ratio r) || (ratio r <? 0.95))%float eqn:Htest.
  - split.
    + split; [discriminate|]. intros H. apply Hband in H. discriminate H.
    + intros v [= <-]. split; [by apply bound_test_true_not_nan|].
      destruct ((0.95 <=? ratio r) && (ratio r <=? 1.05))%float eqn:Hin;
        [|reflexivity].
      assert (Hf : true = false) by (apply Hband; by right). discriminate Hf.
  - split.
    + split; [intros _; by apply Hband|reflexivity].
    + intros v Hv. discriminate Hv.
Qed.

Lemma alert_absent_iff_within_band_witness :
  (trigger_alert (mkRow 1.05 1 1.05 20 1.05 0.95 None) = None <->
     is_nan (ratio (mkRow 1.05 1 1.05 20 1.05 0.95 None)) = true
     \/ ((0.95 <=? ratio (mkRow 1.05 1 1.05 20 1.05 0.95 None))
         && (ratio (mkRow 1.05 1 1.05 20 1.05 0.95 None) <=? 1.05))%float = true)
  /\ (forall v, trigger_alert (mkRow 1.05 1 1.05 20 1.05 0.95 None) = Some v ->
        is_nan v = false /\ ((0.95 <=? v) && (v <=? 1.05))%float = false).
Proof.
  apply (alert_absent_iff_within_band [abc 1.05 1.05; def 1 1]). reflexivity.
Defined.

(** X2: a ratio that is zero or negative (a zero or negative mid-price of
    the first instrument) is below the lower bound: the alert is present and
    carries that ratio, zero included. *)
Theorem nonpositive_ratio_alerts (qs : list ServerRespond) (r : Row) :
  generateRow qs = Return r ->
  (ratio r <=? 0)%float = true ->
  trigger_alert r = Some (ratio r).
Proof.
  intros Hr Hle. rewrite (trigger_alert_eq qs r Hr).
  rewrite (nonpositive_below_lower_bound (ratio r) Hle), orb_true_r.
  reflexivity.
Qed.

Lemma nonpositive_ratio_alerts_witness :
  trigger_alert (mkRow 0 50 0 20 1.05 0.95 (Some 0%float))
  = Some (ratio (mkRow 0 50 0 20 1.05 0.95 (Some 0%float))).
Proof.
  apply (nonpositive_ratio_alerts [abc 0 0; def 50 50]); reflexivity.
Defined.

(** ** What the reducer does not look at *)

(** X3: the mid-price does not tell the ask from the bid: exchanging the
    two prices inside the first quote alone, inside the second quote alone,
    or inside both, gives the same result, whatever the other element is,
    binary64 addition being commutative. *)
Theorem ask_and_bid_exchanged (n0 n1 : string) (ask0 bid0 ask1 bid1 : float)
    (t0 t1 : Z) (q : ServerRespond) (rest : list ServerRespond) :
  generateRow (quote n0 bid0 ask0 t0 :: q :: rest)
  = generateRow (quote n0 ask0 bid0 t0 :: q :: rest)
  /\ generateRow (q :: quote n1 bid1 ask1 t1 :: rest)
     = generateRow (q :: quote n1 ask1 bid1 t1 :: rest)
  /\ generateRow (quote n0 bid0 ask0 t0 :: quote n1 bid1 ask1 t1 :: rest)
     = generateRow (quote n0 ask0 bid0 t0 :: quote n1 ask1 bid1 t1 :: rest).
Proof.
  split; [|split]; unfold generateRow; cbn.
  - rewrite (float_add_comm bid0 ask0). reflexivity.
  - rewrite (float_add_comm bid1 ask1). reflexivity.
  - rewrite (float_add_comm bid0 ask0), (float_add_comm bid1 ask1). reflexivity.
Qed.

(** The reducer never reads the instrument names: the result is the
    same whatever the [stock] of the two elements, so an input whose
    instruments are not in the expected order is not detected. *)
Theorem stock_is_not_read (n0 n1 : string) (q0 q1 : ServerRespond)
    (rest : list ServerRespond) :
  generateRow (rename n0 q0 :: rename n1 q1 :: rest)
  = generateRow (q0 :: q1 :: rest).
Proof. reflexivity. Qed.

(** X4: exchanging the two quotes exchanges the two mid-prices and turns
    the ratio upside down, and leaves the timestamp and the bounds as they
    were. *)
Theorem quotes_exchanged (n0 n1 : string) (ask0 bid0 ask1 bid1 : float)
    (t0 t1 : Z) (rest : list ServerRespond) :
  exists r r',
    generateRow (quote n0 ask0 bid0 t0 :: quote n1 ask1 bid1 t1 :: rest) = Return r
    /\ generateRow (quote n1 ask1 bid1 t1 :: quote n0 ask0 bid0 t0 :: rest) = Return r'
    /\ price_abc r' = price_def r
    /\ price_def r' = price_abc r
    /\ ratio r' = (price_def r / price_abc r)%float
    /\ timestamp r' = timestamp r
    /\ upper_bound r' = upper_bound r
    /\ lower_bound r' = lower_bound r.
Proof.
  eexists. eexists. split; [reflexivity|]. split; [reflexivity|].
  cbn [price_abc price_def ratio timestamp upper_bound lower_bound
       DataStreamer.timestamp quote].
  repeat split.
  destruct (Z.ltb_spec t0 t1), (Z.ltb_spec t1 t0); lia.
Qed.

(** * Further properties of the component *)

Section Lifecycle.
Import Graph.

(** The attributes after the four [setAttribute] calls of the mount. *)
Lemma configured_lookup (m : gmap string string) (name : string) :
  name ∉ view_attributes ->
  (<["aggregates"%string := JSON.stringify aggregates]>
     (<["columns"%string := columns_text]>
        (<["row-pivots"%string := row_pivots_text]>
           (<["view"%string := "y_line"%string]> m)))) !! name = m !! name.
Proof.
  unfold view_attributes. intros Hn.
  rewrite !lookup_insert_ne; [reflexivity|..]; intros <-; apply Hn;
    repeat constructor.
Qed.

Lemma configured_twice (m : gmap string string) :
  let set m :=
    <["aggregates"%string := JSON.stringify aggregates]>
      (<["columns"%string := columns_text]>
         (<["row-pivots"%string := row_pivots_text]>
            (<["view"%string := "y_line"%string]> m))) in
  set (set m) = set m.
Proof.
  cbv zeta. apply map_eq. intros name.
  destruct (decide (name = "aggregates"%string)) as [->|Ha];
    [by rewrite !lookup_insert_eq|].
  rewrite !(lookup_insert_ne _ "aggregates"%string) by done.
  destruct (decide (name = "columns"%string)) as [->|Hc];
    [by rewrite !lookup_insert_eq|].
  rewrite !(lookup_insert_ne _ "columns"%string) by done.
  destruct (decide (name = "row-pivots"%string)) as [->|Hr];
    [by rewrite !lookup_insert_eq|].
  rewrite !(lookup_insert_ne _ "row-pivots"%string) by done.
  destruct (decide (name = "view"%string)) as [->|Hv];
    [by rewrite !lookup_insert_eq|].
  rewrite !(lookup_insert_ne _ "view"%string) by done.
  rewrite !lookup_insert_ne by done. reflexivity.
Qed.

Lemma generateRow_Throw_inv (qs : list ServerRespond) (e : exn) :
  generateRow qs = Throw e ->
  (length qs < 2)%nat \/ Exists (fun s => has_orders s = false) (take 2 qs).
Proof.
  intros Hthrow.
  destruct qs as [|q0 [|q1 rest]]; cbn [length]; [left; lia|left; lia|].
  right. cbn [take].
  destruct (has_orders q0) eqn:H0; [|by apply Exists_cons_hd].
  destruct (has_orders q1) eqn:H1; [|by apply Exists_cons_tl, Exists_cons_hd].
  destruct (has_orders_inv q0 H0) as (ask0 & bid0 & Ha0 & Hb0).
  destruct (has_orders_inv q1 H1) as (ask1 & bid1 & Ha1 & Hb1).
  rewrite (generateRow_orders q0 q1 rest ask0 bid0 ask1 bid1) in Hthrow
    by assumption.
  discriminate.
Qed.

Lemma generateRow_malformed (qs : list ServerRespond) :
  (length qs < 2)%nat \/ Exists (fun s => has_orders s = false) (take 2 qs) ->
  generateRow qs = Throw TypeError.
Proof.
  intros [Hlen|Hex]; [by apply generateRow_short|].
  destruct qs as [|q0 [|q1 rest]];
    [reflexivity|by apply generateRow_short; cbn; lia|].
  apply generateRow_no_orders. cbn [take] in Hex.
  apply Exists_cons in Hex as [->|Hex]; [reflexivity|].
  apply Exists_cons in Hex as [->|Hex]; [apply andb_false_r|].
  by apply Exists_nil in Hex.
Qed.

End Lifecycle.

(** X5: whatever the window and the component, mounting changes no
    attribute of the viewer other than view, row-pivots, columns and
    aggregates. *)
Theorem mount_keeps_other_attributes (window : Graph.Window)
    (this : Graph.Graph) (name : string) :
  name ∉ view_attributes ->
  Graph.attributes (Graph.elem (Graph.componentDidMount window this)) !! name
  = Graph.attributes (Graph.elem this) !! name.
Proof.
  intros Hn. unfold Graph.componentDidMount.
  destruct (Graph.perspective window ≫= Graph.worker) as [w|]; cbn.
  - by apply configured_lookup.
  - destruct (Graph.table this); cbn; [by apply configured_lookup|reflexivity].
Qed.

Lemma mount_keeps_other_attributes_witness :
  Graph.attributes
    (Graph.elem
       (Graph.componentDidMount
          (Graph.mkWindow (Some (Graph.mkPerspective (Some Graph.PerspectiveWorker))))
          (Graph.mkGraph None
             (Graph.mkElement false {[ "column-pivots"%string := "[]"%string ]}))))
    !! "column-pivots"%string
  = Graph.attributes
      (Graph.mkElement false {[ "column-pivots"%string := "[]"%string ]})
    !! "column-pivots"%string.
Proof.
  apply (mount_keeps_other_attributes
           (Graph.mkWindow (Some (Graph.mkPerspective (Some Graph.PerspectiveWorker))))
           (Graph.mkGraph None
              (Graph.mkElement false {[ "column-pivots"%string := "[]"%string ]}))
           "column-pivots"%string).
  unfold view_attributes. intros H.
  repeat (apply elem_of_cons in H as [H|H]; [discriminate H|]).
  by apply elem_of_nil in H.
Defined.

(** X6: mounting is idempotent: a second mount in the same window leaves
    the component as the first one left it (the same table, empty when
    perspective is there, and the same attributes). *)
Theorem mount_idempotent (window : Graph.Window) (this : Graph.Graph) :
  Graph.componentDidMount window (Graph.componentDidMount window this)
  = Graph.componentDidMount window this.
Proof.
  unfold Graph.componentDidMount.
  destruct (Graph.perspective window ≫= Graph.worker) as [w|]; cbn.
  - unfold Graph.setAttribute, Graph.load. cbn. f_equal. f_equal.
    apply configured_twice.
  - destruct (Graph.table this) as [t|] eqn:Ht; cbn.
    + unfold Graph.setAttribute, Graph.load. cbn. f_equal. f_equal.
      apply configured_twice.
    + rewrite Ht. reflexivity.
Qed.

(** ** Runs of ticks *)

(** X7: a run of ticks on a component that has its table calls the
    reducer on each data in turn and appends one batch of one record per
    tick, in the order of the ticks, to the batches the table had; the schema
    and the viewer are left as they were. The run throws exactly when the
    reducer throws on one of the data. *)
Theorem ticks_append_singleton_batches (updates : list (list ServerRespond))
    (this : Graph.Graph) (t : Graph.Table) :
  Graph.table this = Some t ->
  ticks updates this =
  rows ← mapM generateRow updates;
  mret {| Graph.table :=
            Some {| Graph.table_schema := Graph.table_schema t;
                    Graph.batches := Graph.batches t ++ map (fun row => [row]) rows |};
          Graph.elem := Graph.elem this |}.
Proof.
  revert this t. induction updates as [|props_data later IH]; intros this t Ht.
  - cbn. destruct this as [tb e], t as [sch bs]. cbn in *. subst tb.
    rewrite app_nil_r. reflexivity.
  - cbn [ticks]. rewrite (componentDidUpdate_table props_data this t Ht).
    cbn [mapM].
    destruct (generateRow props_data) as [row|e]; cbn; [|reflexivity].
    rewrite (IH {| Graph.table := Some (Graph.update t [row]);
                   Graph.elem := Graph.elem this |}
                (Graph.update t [row]) eq_refl).
    destruct (mapM generateRow later) as [rows|e]; cbn; [|reflexivity].
    rewrite <- app_assoc. reflexivity.
Qed.

Lemma ticks_append_singleton_batches_witness :
  ticks [[abc 101 99; def 50 50]; [abc 100 100; def 100 100]]
        (Graph.mkGraph (Some (Graph.mkTable Graph.schema [])) Graph.render)
  = rows ← mapM generateRow [[abc 101 99; def 50 50]; [abc 100 100; def 100 100]];
    mret {| Graph.table :=
              Some {| Graph.table_schema :=
                        Graph.table_schema (Graph.mkTable Graph.schema []);
                      Graph.batches :=
                        Graph.batches (Graph.mkTable Graph.schema [])
                        ++ map (fun row => [row]) rows |};
            Graph.elem :=
              Graph.elem
                (Graph.mkGraph (Some (Graph.mkTable Graph.schema [])) Graph.render) |}.
Proof.
  apply (ticks_append_singleton_batches
           [[abc 101 99; def 50 50]; [abc 100 100; def 100 100]]
           (Graph.mkGraph (Some (Graph.mkTable Graph.schema [])) Graph.render)
           (Graph.mkTable Graph.schema [])).
  reflexivity.
Defined.

(** X8: when perspective is missing at the mount of a component without
    a table, no run of ticks throws or submits anything, whatever the data,
    malformed data included: the reducer is not called and the component
    stays as it was before the mount. *)
Theorem ticks_without_perspective (window : Graph.Window) (this : Graph.Graph)
    (updates : list (list ServerRespond)) :
  Graph.perspective window ≫= Graph.worker = None ->
  Graph.table this = None ->
  ticks updates (Graph.componentDidMount window this) = Return this.
Proof.
  intros Hw Ht. unfold Graph.componentDidMount. rewrite Hw, Ht.
  induction updates as [|props_data later IH]; [reflexivity|].
  cbn [ticks]. unfold Graph.componentDidUpdate. rewrite Ht. exact IH.
Qed.

Lemma ticks_without_perspective_witness :
  ticks [[]; [abc 101 99]; [abc 101 99; def 50 50]]
        (Graph.componentDidMount (Graph.mkWindow None) Graph.initial)
  = Return Graph.initial.
Proof.
  apply (ticks_without_perspective (Graph.mkWindow None) Graph.initial
           [[]; [abc 101 99]; [abc 101 99; def 50 50]]); reflexivity.
Defined.

(** X9: a tick throws exactly when the component has its table and the
    data has fewer than two elements or one of its first two elements lacks an
    order object; the exception is the TypeError of the reducer. *)
Theorem tick_throws_iff (props_data : list ServerRespond) (this : Graph.Graph) :
  (Graph.componentDidUpdate props_data this = Throw TypeError <->
     is_Some (Graph.table this)
     /\ ((length props_data < 2)%nat
         \/ Exists (fun s => has_orders s = false) (take 2 props_data)))
  /\ (forall e, Graph.componentDidUpdate props_data this = Throw e -> e = TypeError).
Proof.
  unfold Graph.componentDidUpdate.
  destruct (Graph.table this) as [t|]; cbn.
  - destruct (generateRow props_data) as [row|e] eqn:Hrow; cbn.
    + split; [|discriminate]. split; [discriminate|].
      intros [_ Hbad]. apply generateRow_malformed in Hbad. congruence.
    + destruct e. split; [|by intros []]. split; [|reflexivity].
      intros _. split; [eauto|]. by eapply generateRow_Throw_inv.
  - split; [|discriminate]. split; [discriminate|].
    intros [[? H] _]. discriminate H.
Qed.

(** ** The view and the schema *)

(** X10: the texts written on the viewer agree with the schema: every
    column plotted is a key of the schema of type float with the aggregate
    avg, the row pivot is the key of type date, and the schema and the
    aggregates have the same keys, each once. *)
Theorem view_agrees_with_schema :
  (exists columns,
     JSON.parse_array Graph.columns_text = Some columns
     /\ Forall (fun c => Graph.property Graph.schema c = Some "float"%string
                         /\ Graph.property Graph.aggregates c = Some "avg"%string)
          columns)
  /\ (exists pivots,
        JSON.parse_array Graph.row_pivots_text = Some pivots
        /\ Forall (fun c => Graph.property Graph.schema c = Some "date"%string)
             pivots)
  /\ Graph.schema.*1 = Graph.aggregates.*1
  /\ NoDup Graph.schema.*1.
Proof.
  split; [|split; [|split]].
  - eexists. split; [vm_compute; reflexivity|]. repeat constructor.
  - eexists. split; [vm_compute; reflexivity|]. repeat constructor.
  - reflexivity.
  - apply (bool_decide_unpack _). vm_compute. reflexivity.
Qed.

(** ** The configuration during a run *)

Section Runs.
Import Graph.

(** Ticks leave the viewer alone and neither create nor drop the table. *)
Lemma ticks_keep_elem (updates : list (list ServerRespond)) (this this' : Graph) :
  ticks updates this = Return this' ->
  elem this' = elem this /\ (table this' = None <-> table this = None).
Proof.
  revert this. induction updates as [|props_data later IH]; intros this Hrun.
  - injection Hrun as <-. split; reflexivity.
  - cbn [ticks] in Hrun. unfold componentDidUpdate in Hrun.
    destruct (table this) as [t|] eqn:Ht; cbn in Hrun.
    + destruct (generateRow props_data) as [row|e]; cbn in Hrun; [|discriminate].
      apply IH in Hrun as [He Hn]. cbn in He, Hn.
      split; [exact He|]. rewrite Hn. split; discriminate.
    + apply IH in Hrun as [He Hn]. rewrite Ht in Hn. by split.
Qed.

Lemma div_nan (x y : float) :
  is_nan x = true \/ is_nan y = true -> is_nan (x / y) = true.
Proof.
  rewrite !is_nan_SF, div_spec. intros [-> | ->]; [reflexivity|].
  destruct (Prim2SF x); reflexivity.
Qed.

End Runs.

(** X11: after a mount and any run of ticks that returns, the viewer is
    as the mount left it; if the component then has a table the viewer is
    loaded and still carries the four attributes of the mount, and it has no
    table only when perspective was missing at the mount of a component
    without one. *)
Theorem configuration_survives_ticks (window : Graph.Window)
    (this this' : Graph.Graph) (updates : list (list ServerRespond)) :
  ticks updates (Graph.componentDidMount window this) = Return this' ->
  Graph.elem this' = Graph.elem (Graph.componentDidMount window this)
  /\ (is_Some (Graph.table this') ->
      Graph.loaded (Graph.elem this') = true
      /\ Graph.attributes (Graph.elem this') !! "view"%string = Some "y_line"%string
      /\ Graph.attributes (Graph.elem this') !! "row-pivots"%string
         = Some Graph.row_pivots_text
      /\ Graph.attributes (Graph.elem this') !! "columns"%string
         = Some Graph.columns_text
      /\ Graph.attributes (Graph.elem this') !! "aggregates"%string
         = Some (JSON.stringify Graph.aggregates))
  /\ (Graph.table this' = None <->
      Graph.perspective window ≫= Graph.worker = None /\ Graph.table this = None).
Proof.
  intros Hrun. apply ticks_keep_elem in Hrun as [He Hnone]. rewrite He.
  split; [reflexivity|]. revert Hnone. unfold Graph.componentDidMount.
  destruct (Graph.perspective window ≫= Graph.worker) as [w|]; cbn.
  - intros Hnone. split.
    + intros _. split; [reflexivity|].
      repeat split;
        by rewrite ?lookup_insert_ne, ?lookup_insert_eq by discriminate.
    + rewrite Hnone. split; [discriminate|intros [H _]; discriminate H].
  - destruct (Graph.table this) as [t|] eqn:Ht; cbn; intros Hnone.
    + split.
      * intros _. split; [reflexivity|].
        repeat split;
          by rewrite ?lookup_insert_ne, ?lookup_insert_eq by discriminate.
      * rewrite Hnone. split; [discriminate|intros [_ H]; discriminate H].
    + rewrite Ht in Hnone. split.
      * intros [x Hx]. rewrite (proj2 Hnone eq_refl) in Hx. discriminate Hx.
      * rewrite Hnone. by split.
Qed.

Lemma configuration_survives_ticks_witness :
  Graph.elem
    (Graph.mkGraph
       (Some (Graph.mkTable Graph.schema [[mkRow 100 50 2 20 1.05 0.95 (Some 2%float)]]))
       (Graph.elem
          (Graph.componentDidMount
             (Graph.mkWindow (Some (Graph.mkPerspective (Some Graph.PerspectiveWorker))))
             Graph.initial)))
  = Graph.elem
      (Graph.componentDidMount
         (Graph.mkWindow (Some (Graph.mkPerspective (Some Graph.PerspectiveWorker))))
         Graph.initial).
Proof.
  apply (configuration_survives_ticks
           (Graph.mkWindow (Some (Graph.mkPerspective (Some Graph.PerspectiveWorker))))
           Graph.initial
           (Graph.mkGraph
              (Some (Graph.mkTable Graph.schema
                       [[mkRow 100 50 2 20 1.05 0.95 (Some 2%float)]]))
              (Graph.elem
                 (Graph.componentDidMount
                    (Graph.mkWindow
                       (Some (Graph.mkPerspective (Some Graph.PerspectiveWorker))))
                    Graph.initial)))
           [[abc 101 99; def 50 50]]).
  reflexivity.
Defined.

(** X12: a missing price is not an error and raises no alert: when the
    order objects of the first two elements are there and one of the four
    prices is missing, the reducer returns a record whose ratio is NaN and
    whose alert is absent. *)
Theorem missing_price_silences_alert (q0 q1 : ServerRespond)
    (rest : list ServerRespond) :
  has_orders q0 = true -> has_orders q1 = true ->
  has_prices q0 = false \/ has_prices q1 = false ->
  exists r,
    generateRow (q0 :: q1 :: rest) = Return r
    /\ is_nan (ratio r) = true
    /\ trigger_alert r = None.
Proof.
  intros H0 H1 Hmiss.
  destruct (has_orders_inv q0 H0) as (ask0 & bid0 & Ha0 & Hb0).
  destruct (has_orders_inv q1 H1) as (ask1 & bid1 & Ha1 & Hb1).
  rewrite (generateRow_orders q0 q1 rest ask0 bid0 ask1 bid1) by assumption.
  eexists. split; [reflexivity|]. cbn [ratio trigger_alert].
  rewrite upperBound_eq, lowerBound_eq.
  set (a := ((to_number (price ask0) + to_number (price bid0)) / 2)%float).
  set (b := ((to_number (price ask1) + to_number (price bid1)) / 2)%float).
  assert (Hnan : is_nan (a / b) = true).
  { apply div_nan. destruct Hmiss as [Hp|Hp]; [left|right];
      apply mid_price_missing; eapply has_prices_false; eauto. }
  split; [exact Hnan|]. rewrite (nan_inside_bounds _ Hnan). reflexivity.
Qed.

Lemma missing_price_silences_alert_witness :
  exists r,
    generateRow [mkServerRespond "ABC" (Some (mkOrder (Some 99%float)))
                   (Some (mkOrder None)) 10;
                 def 50 50] = Return r
    /\ is_nan (ratio r) = true
    /\ trigger_alert r = None.
Proof.
  apply (missing_price_silences_alert
           (mkServerRespond "ABC" (Some (mkOrder (Some 99%float)))
              (Some (mkOrder None)) 10)
           (def 50 50) []); [reflexivity|reflexivity|left; reflexivity].
Defined.
